(** * FinancialTone: a shallow embedding of [validator/main.py]

    The validator asks a text classifier for a (label, score) prediction
    and turns it into a pass/fail result.  Python values are modelled by an
    inductive type, floats by IEEE 754 binary64 ([spec_float] with the
    comparison of the standard), dictionaries by finite maps held in a
    store and passed by reference, exceptions by a result type, and
    [print] and classifier invocations by logs kept in the world. *)

From Stdlib Require Import ZArith String Ascii List.
From Stdlib Require Import Floats.SpecFloat.
From stdpp Require Import base option gmap strings.

Local Open Scope string_scope.

(** ** Python values *)

(** Python's [float] is binary64. *)
Definition float : Type := spec_float.
Definition prec : Z := 53.
Definition emax : Z := 1024.

(** [a > b] on floats; any comparison with a NaN is [False]. *)
Definition float_gt (a b : float) : bool := SFltb b a.
Definition float_ge (a b : float) : bool := SFleb b a.
Definition float_le (a b : float) : bool := SFleb a b.
Definition float_eq (a b : float) : bool := SFeqb a b.

Definition float_zero : float := S754_zero false.
Definition float_one : float := S754_finite false 4503599627370496 (-52).

Inductive PyVal : Type :=
  | PyNone
  | PyBool (b : bool)
  | PyInt (n : Z)
  | PyFloat (x : float)
  | PyStr (s : string).

Inductive exn : Type :=
  | AssertionError (msg : string)
  | RuntimeError (msg : string)
  | ValueError (msg : string)
  | TypeError (msg : string)
  | OverflowError (msg : string)
  | AttributeError (msg : string)
  | ExternalError (msg : string).

Inductive Res (A : Type) : Type :=
  | Ok (a : A)
  | Raise (e : exn).
Arguments Ok {A} a.
Arguments Raise {A} e.

(** ** The world: store of dictionaries, standard output, classifier log *)

Definition loc : Type := positive.

Inductive Line : Type :=
  | LineText (s : string)
  | LinePrediction (pred_label : string) (confidence : float).

Record World : Type := mkWorld {
  heap : gmap loc (gmap string PyVal);
  stdout : list Line;
  pipe_calls : list string
}.

Definition M (A : Type) : Type := World -> Res A * World.

#[export] Instance M_ret : MRet M := fun A a w => (Ok a, w).
#[export] Instance M_bind : MBind M := fun A B f m w =>
  match m w with
  | (Ok a, w') => f a w'
  | (Raise e, w') => (Raise e, w')
  end.

Definition raise {A : Type} (e : exn) : M A := fun w => (Raise e, w).

Definition lift {A : Type} (r : Res A) : M A := fun w => (r, w).

Definition print (l : Line) : M unit := fun w =>
  (Ok tt, mkWorld (heap w) (stdout w ++ [l]) (pipe_calls w)).

(** [metadata.get(key, dflt)] on the dictionary stored at [metadata]. *)
Definition dict_get (metadata : loc) (key : string) (dflt : PyVal) : M PyVal :=
  fun w =>
    match heap w !! metadata with
    | Some d => (Ok (default dflt (d !! key)), w)
    | None => (Raise (AttributeError "object has no attribute 'get'"), w)
    end.

(** ** Strings *)

(** [str.lower] on the ASCII range, where the labels live. *)
Definition lower_ascii (c : ascii) : ascii :=
  let n := N_of_ascii c in
  if ((65 <=? n) && (n <=? 90))%N then ascii_of_N (n + 32) else c.

Fixpoint lower (s : string) : string :=
  match s with
  | EmptyString => EmptyString
  | String c s' => String (lower_ascii c) (lower s')
  end.

(** [v in l] for a list of [str] literals: only an equal [str] is a member. *)
Definition py_in (v : PyVal) (l : list string) : option string :=
  match v with
  | PyStr s => if bool_decide (s ∈ l) then Some s else None
  | _ => None
  end.

(** ** The classifier and the result types *)

Record Prediction : Type := mkPrediction {
  label : string;
  score : float
}.

Definition Pipeline : Type := string -> Res (list Prediction).

Inductive ValidationResult : Type :=
  | PassResult (metadata : option loc)
  | FailResult (metadata : option loc) (error_message : string).

Record FinancialTone : Type := mkFinancialTone {
  _pipe : Pipeline
}.

Definition DEFAULT_THRESHOLD : float :=
  S754_finite false 7205759403792794 (-53).
Definition DEFAULT_TONE : string := "neutral".

Definition TONES : list string := ["positive"; "negative"; "neutral"].
Definition LABELS : list string := ["Positive"; "Negative"; "Neutral"].

(** ** Optional imports at module level *)

(** What an [import] statement guarded by [except ImportError] can do:
    bind the name, raise [ImportError] (caught), or raise something else
    (not caught). *)
Inductive Imported (A : Type) : Type :=
  | ImportOk (a : A)
  | ImportError
  | ImportRaise (e : exn).
Arguments ImportOk {A} a.
Arguments ImportError {A}.
Arguments ImportRaise {A} e.

(** What [nltk.data.find] can do under [except LookupError]. *)
Inductive Lookup : Type :=
  | Found
  | LookupError
  | LookupRaise (e : exn).

(** The two entry points of [nltk] the module uses, over the state [S] of
    the local nltk data. *)
Record Nltk (S : Type) : Type := mkNltk {
  nltk_data_find : string -> S -> Lookup;
  nltk_download : string -> S -> Res bool * S
}.
Arguments mkNltk {S} _ _.
Arguments nltk_data_find {S} _ _ _.
Arguments nltk_download {S} _ _ _.

(** ** Concrete data of the demo script and of the examples of use *)

Module Demo.

(** A runtime whose [float(str)] rejects every string. *)
Definition float_of_str : string -> Res float :=
  fun _ => Raise (ValueError "could not convert string to float").

Definition Validator__init__ (on_fail : option unit)
    (kwargs : gmap string PyVal) : Res unit := Ok tt.

Definition f0_9 : float := S754_finite false 8106479329266893 (-53).
Definition f0_95 : float := S754_finite false 8556839292003942 (-53).
Definition f0_99 : float := S754_finite false 8917127262193582 (-53).
Definition f1_5 : float := S754_finite false 6755399441055744 (-52).

(** A classifier that answers every text with one fixed prediction. *)
Definition constant (l : string) (c : float) : FinancialTone :=
  mkFinancialTone (fun _ => Ok [mkPrediction l c]).

(** A classifier that answers with the empty list. *)
Definition silent : FinancialTone := mkFinancialTone (fun _ => Ok []).

Definition empty_md : gmap string PyVal := ∅.
Definition positive_md : gmap string PyVal :=
  {[ "financial_tone" := PyStr "positive" ]}.
Definition neutral_md : gmap string PyVal :=
  <[ "financial_tone" := PyStr "neutral" ]>
    {[ "financial_tone_threshold" := PyFloat DEFAULT_THRESHOLD ]}.
Definition bullish_md : gmap string PyVal :=
  {[ "financial_tone" := PyStr "bullish" ]}.
Definition strict_md : gmap string PyVal :=
  <[ "financial_tone" := PyStr "positive" ]>
    {[ "financial_tone_threshold" := PyFloat f1_5 ]}.

(** A classifier whose call raises. *)
Definition broken : FinancialTone :=
  mkFinancialTone (fun _ => Raise (ExternalError "inference failed")).

(** A classifier that answers with two predictions. *)
Definition two (r0 r1 : Prediction) : FinancialTone :=
  mkFinancialTone (fun _ => Ok [r0; r1]).

Definition f0_5 : float := S754_finite false 4503599627370496 (-53).
Definition minus_one : float := S754_finite true 4503599627370496 (-52).

Definition none_threshold_md : gmap string PyVal :=
  {[ "financial_tone_threshold" := PyNone ]}.
Definition int_threshold_md : gmap string PyVal :=
  <[ "financial_tone" := PyStr "positive" ]>
    {[ "financial_tone_threshold" := PyInt 1 ]}.
Definition nan_threshold_md : gmap string PyVal :=
  <[ "financial_tone" := PyStr "positive" ]>
    {[ "financial_tone_threshold" := PyFloat S754_nan ]}.
Definition negative_threshold_md : gmap string PyVal :=
  <[ "financial_tone" := PyStr "positive" ]>
    {[ "financial_tone_threshold" := PyFloat minus_one ]}.
Definition tagged_md : gmap string PyVal :=
  <[ "author" := PyStr "desk" ]> positive_md.

(** A pipeline factory that always succeeds. *)
Definition factory (task model : string) : Res Pipeline :=
  Ok (_pipe (constant "Neutral" f0_9)).

(** An nltk whose data is one flag, "punkt is present", set by a
    download. *)
Definition nltk : Nltk bool :=
  mkNltk (fun _ (present : bool) => if present then Found else LookupError)
         (fun _ _ => (Ok true, true)).

(** A world holding one dictionary at reference 1. *)
Definition world (d : gmap string PyVal) : World :=
  mkWorld {[ 1%positive := d ]} [] [].

End Demo.

(** ** The program *)

Section Validator.

(** Python's [float(str)]: the literal parser of the interpreter. *)
Variable float_of_str : string -> Res float.

(** The framework's callback type and base-class constructor
    ([guardrails.validator_base.Validator.__init__]). *)
Variable Callable : Type.
Variable Validator__init__ : option Callable -> gmap string PyVal -> Res unit.

(** The state of the local nltk data ([nltk.data.path] on disk). *)
Variable NltkData : Type.

(** [float(n)] for an [int]: round to nearest even, [OverflowError]
    when the result does not fit. *)
Definition float_of_int (n : Z) : Res float :=
  match binary_normalize prec emax n 0 false with
  | S754_infinity _ => Raise (OverflowError "int too large to convert to float")
  | x => Ok x
  end.

(** The builtin [float(v)]. *)
Definition py_float (v : PyVal) : Res float :=
  match v with
  | PyFloat x => Ok x
  | PyInt n => float_of_int n
  | PyBool b => Ok (if b then float_one else float_zero)
  | PyStr s => float_of_str s
  | PyNone =>
      Raise (TypeError
        "float() argument must be a string or a real number, not 'NoneType'")
  end.

(** The module-level name [pipeline]: [transformers.pipeline] when the
    import succeeded, [None] otherwise. *)
Definition PipelineFactory : Type := string -> string -> Res Pipeline.

(** The module's global names after its top-level statements ran. *)
Record Globals : Type := mkGlobals {
  pipeline : option PipelineFactory;
  nltk : option (Nltk NltkData)
}.

(** The top-level statements before the class: the two guarded imports
    and the one-time fetch of the punkt tokenizer data. *)
Definition load_module (import_transformers : Imported PipelineFactory)
    (import_nltk : Imported (Nltk NltkData)) (s : NltkData)
    : Res Globals * NltkData :=
  match import_transformers with
  | ImportRaise e => (Raise e, s)
  | _ =>
      let pipeline :=
        match import_transformers with
        | ImportOk p => Some p
        | _ => None
        end in
      match import_nltk with
      | ImportRaise e => (Raise e, s)
      | ImportError => (Ok (mkGlobals pipeline None), s)
      | ImportOk n =>
          match nltk_data_find n "tokenizers/punkt" s with
          | Found => (Ok (mkGlobals pipeline (Some n)), s)
          | LookupError =>
              match nltk_download n "punkt" s with
              | (Ok _, s') => (Ok (mkGlobals pipeline (Some n)), s')
              | (Raise e, s') => (Raise e, s')
              end
          | LookupRaise e => (Raise e, s)
          end
      end
  end.

Definition __init__ (pipeline : option PipelineFactory)
    (on_fail : option Callable) (kwargs : gmap string PyVal) : M FinancialTone :=
  _ ← lift (Validator__init__ on_fail kwargs);
  match pipeline with
  | None =>
      raise (ValueError
        ("You must install transformers in order to "
         +:+ "use the FinancialTone validator."
         +:+ "Install it using `pip install transformers`."))
  | Some mk =>
      p ← lift (mk "text-classification" "yiyanghkust/finbert-tone");
      _ ← print (LineText "Pipeline setup successfully.");
      mret (mkFinancialTone p)
  end.

(** [self._pipe(value)], with the invocation recorded. *)
Definition call_pipe (self : FinancialTone) (value : string)
    : M (list Prediction) :=
  fun w =>
    (_pipe self value,
     mkWorld (heap w) (stdout w) (pipe_calls w ++ [value])).

Definition has_correct_financial_tone (self : FinancialTone) (value : string)
    (financial_tone : string) (threshold : float) : M bool :=
  result ← call_pipe self value;
  match result with
  | [] => raise (RuntimeError "Failed to get model prediction.")
  | r0 :: _ =>
      let pred_label := label r0 in
      let confidence := score r0 in
      if negb (bool_decide (pred_label ∈ LABELS))
      then raise (AssertionError "")
      else
        _ ← print (LinePrediction pred_label confidence);
        if String.eqb (lower pred_label) financial_tone
           && float_gt confidence threshold
        then mret true
        else mret false
  end.

Definition _unpack_metadata (metadata : loc) : M (string * float) :=
  financial_tone ← dict_get metadata "financial_tone" (PyStr DEFAULT_TONE);
  match py_in financial_tone TONES with
  | None =>
      raise (AssertionError
        "The key `financial_tone` must be one of 'positive', 'negative', 'neutral.")
  | Some tone =>
      thr ← dict_get metadata "financial_tone_threshold"
              (PyFloat DEFAULT_THRESHOLD);
      threshold ← lift (py_float thr);
      mret (tone, threshold)
  end.

Definition fail_message (financial_tone : string) : string :=
  "The generated text didn't have tone " +:+ financial_tone +:+ ".".

Definition validate (self : FinancialTone) (value : string) (metadata : loc)
    : M ValidationResult :=
  '(financial_tone, threshold) ← _unpack_metadata metadata;
  ok ← has_correct_financial_tone self value financial_tone threshold;
  if negb ok
  then mret (FailResult (Some metadata) (fail_message financial_tone))
  else mret (PassResult None).


(** ** Auxiliary descriptions of a call *)

(** [_unpack_metadata] as a function of the dictionary alone. *)
Definition unpack_dict (d : gmap string PyVal) : Res (string * float) :=
  match py_in (default (PyStr DEFAULT_TONE) (d !! "financial_tone")) TONES with
  | None =>
      Raise (AssertionError
        "The key `financial_tone` must be one of 'positive', 'negative', 'neutral.")
  | Some tone =>
      match py_float (default (PyFloat DEFAULT_THRESHOLD)
                        (d !! "financial_tone_threshold")) with
      | Ok threshold => Ok (tone, threshold)
      | Raise e => Raise e
      end
  end.

(** The world after the classifier was invoked on [value]. *)
Definition called (w : World) (value : string) : World :=
  mkWorld (heap w) (stdout w) (pipe_calls w ++ [value]).

(** The world after the prediction was also printed. *)
Definition printed (w : World) (value : string) (r0 : Prediction) : World :=
  mkWorld (heap w) (stdout w ++ [LinePrediction (label r0) (score r0)])
          (pipe_calls w ++ [value]).

(** The world in which the dictionary at [md] reads [d]. *)
Definition store_dict (w : World) (md : loc) (d : gmap string PyVal) : World :=
  mkWorld (<[md := d]> (heap w)) (stdout w) (pipe_calls w).

(** ** Properties *)

(** *** Comparison of floats *)

Ltac cmp_cases :=
  repeat match goal with
  | H : context [Pos.compare_cont Eq ?a ?b] |- _ =>
      change (Pos.compare_cont Eq a b) with (Pos.compare a b) in H
  | |- context [Pos.compare_cont Eq ?a ?b] =>
      change (Pos.compare_cont Eq a b) with (Pos.compare a b)
  end;
  repeat match goal with
  | H : context [Z.compare ?a ?b] |- _ => destruct (Z.compare_spec a b)
  | |- context [Z.compare ?a ?b] => destruct (Z.compare_spec a b)
  | H : context [Pos.compare ?a ?b] |- _ => destruct (Pos.compare_spec a b)
  | |- context [Pos.compare ?a ?b] => destruct (Pos.compare_spec a b)
  end.

Lemma SFleb_trans_not_lt (a b c : float) :
  SFleb a b = true -> SFleb b c = true -> SFltb c a = false.
Proof.
  unfold SFleb, SFltb.
  destruct a as [sa|sa| |sa ma ea], b as [sb|sb| |sb mb eb],
           c as [sc|sc| |sc mc ec]; simpl;
    try destruct sa; try destruct sb; try destruct sc; simpl;
    try reflexivity; try discriminate;
    intros Hab Hbc; cmp_cases; simpl in *;
    try reflexivity; try discriminate; try lia.
Qed.

Lemma SFeqb_not_lt (a b : float) : SFeqb a b = true -> SFltb b a = false.
Proof.
  unfold SFeqb, SFltb.
  destruct a as [sa|sa| |sa ma ea], b as [sb|sb| |sb mb eb]; simpl;
    try destruct sa; try destruct sb; simpl;
    try reflexivity; try discriminate;
    intros Hab; cmp_cases; simpl in *;
    try reflexivity; try discriminate; try lia.
Qed.

(** *** What the two halves of [validate] compute *)

Lemma unpack_metadata_eq (md : loc) (w : World) :
  _unpack_metadata md w =
  (match heap w !! md with
   | Some d => unpack_dict d
   | None => Raise (AttributeError "object has no attribute 'get'")
   end, w).
Proof.
  unfold _unpack_metadata, unpack_dict, mbind, M_bind, dict_get, lift, raise.
  destruct (heap w !! md) as [d|] eqn:Hd; [|reflexivity].
  destruct (py_in _ TONES) as [tone|]; [|reflexivity].
  rewrite Hd. destruct (py_float _); reflexivity.
Qed.

Lemma unpack_metadata_ok (md : loc) (w : World) (e : string) (t : float) :
  fst (_unpack_metadata md w) = Ok (e, t) ->
  _unpack_metadata md w = (Ok (e, t), w).
Proof.
  rewrite unpack_metadata_eq. simpl. intros ->. reflexivity.
Qed.

Lemma unpack_dict_tone (d : gmap string PyVal) (e : string) (t : float) :
  unpack_dict d = Ok (e, t) ->
  py_in (default (PyStr DEFAULT_TONE) (d !! "financial_tone")) TONES = Some e
  /\ e ∈ TONES.
Proof.
  unfold unpack_dict.
  destruct (py_in _ TONES) as [tone|] eqn:Hin; [|discriminate].
  destruct (py_float _); [|discriminate].
  intros [= -> _]. split; [reflexivity|].
  unfold py_in in Hin. destruct (default _ _); try discriminate.
  destruct (bool_decide (s ∈ TONES)) eqn:Hs; [|discriminate].
  injection Hin as ->. apply bool_decide_eq_true in Hs. exact Hs.
Qed.

(** A request with an explicit tone and an explicit float threshold
    unpacks to exactly these two. *)
Lemma unpack_dict_explicit (d : gmap string PyVal) (e : string) (t : float) :
  e ∈ TONES ->
  d !! "financial_tone" = Some (PyStr e) ->
  d !! "financial_tone_threshold" = Some (PyFloat t) ->
  unpack_dict d = Ok (e, t).
Proof.
  intros He Htone Hthr. unfold unpack_dict. rewrite Htone, Hthr. simpl.
  rewrite bool_decide_eq_true_2 by exact He. reflexivity.
Qed.

Lemma validate_eq (self : FinancialTone) (value : string) (md : loc)
    (w : World) (e : string) (t : float) :
  fst (_unpack_metadata md w) = Ok (e, t) ->
  validate self value md w =
  match _pipe self value with
  | Raise x => (Raise x, called w value)
  | Ok [] =>
      (Raise (RuntimeError "Failed to get model prediction."), called w value)
  | Ok (r0 :: _) =>
      if bool_decide (label r0 ∈ LABELS)
      then (Ok (if String.eqb (lower (label r0)) e && float_gt (score r0) t
                then PassResult None
                else FailResult (Some md) (fail_message e)),
            printed w value r0)
      else (Raise (AssertionError ""), called w value)
  end.
Proof.
  intros Hu. apply unpack_metadata_ok in Hu.
  unfold validate, mbind, M_bind. rewrite Hu.
  unfold has_correct_financial_tone, mbind, M_bind, call_pipe, called, printed.
  destruct (_pipe self value) as [[|r0 rest]|x]; try reflexivity.
  destruct (bool_decide (label r0 ∈ LABELS)); simpl; [|reflexivity].
  destruct (String.eqb (lower (label r0)) e && float_gt (score r0) t);
    reflexivity.
Qed.

Lemma validate_unpack_raises (self : FinancialTone) (value : string)
    (md : loc) (w : World) (x : exn) :
  fst (_unpack_metadata md w) = Raise x ->
  validate self value md w = (Raise x, w).
Proof.
  intros Hu. unfold validate, mbind, M_bind.
  rewrite unpack_metadata_eq in *. simpl in Hu. rewrite Hu. reflexivity.
Qed.

(** Every call leaves the store alone and only appends to the two logs. *)
Lemma validate_heap (self : FinancialTone) (value : string) (md : loc)
    (w : World) :
  heap (snd (validate self value md w)) = heap w.
Proof.
  destruct (fst (_unpack_metadata md w)) as [[e t]|x] eqn:Hu.
  - rewrite (validate_eq self value md w e t Hu).
    destruct (_pipe self value) as [[|r0 rest]|y]; try reflexivity.
    destruct (bool_decide _); reflexivity.
  - rewrite (validate_unpack_raises self value md w x Hu). reflexivity.
Qed.

(** The result of a call is a function of the store alone. *)
Lemma validate_reads_heap (self : FinancialTone) (value : string) (md : loc)
    (w1 w2 : World) :
  heap w1 = heap w2 ->
  fst (validate self value md w1) = fst (validate self value md w2).
Proof.
  intros Hh.
  assert (Hu : fst (_unpack_metadata md w1) = fst (_unpack_metadata md w2)).
  { rewrite !unpack_metadata_eq. simpl. rewrite Hh. reflexivity. }
  destruct (fst (_unpack_metadata md w2)) as [[e t]|x] eqn:Hu2.
  - rewrite (validate_eq self value md w1 e t Hu).
    rewrite (validate_eq self value md w2 e t Hu2).
    destruct (_pipe self value) as [[|r0 rest]|y]; try reflexivity.
    destruct (bool_decide _); reflexivity.
  - rewrite (validate_unpack_raises self value md w1 x Hu).
    rewrite (validate_unpack_raises self value md w2 x Hu2). reflexivity.
Qed.

(** *** The decision rule *)

(** C1: with a request that unpacks to tone [e] and threshold [t] and a
    prediction [(label, c)] of the classifier's label set, [validate]
    returns Pass exactly when [lower label = e] and [c > t]; every other
    such call returns Fail, and [c == t] is among them. *)
Theorem validate_pass_iff (self : FinancialTone) (value : string) (md : loc)
    (w : World) (e : string) (t : float) (r0 : Prediction)
    (rest : list Prediction) :
  fst (_unpack_metadata md w) = Ok (e, t) ->
  _pipe self value = Ok (r0 :: rest) ->
  label r0 ∈ LABELS ->
  let out := fst (validate self value md w) in
  (out = Ok (PassResult None)
     <-> lower (label r0) = e /\ float_gt (score r0) t = true)
  /\ (out <> Ok (PassResult None)
      -> out = Ok (FailResult (Some md) (fail_message e)))
  /\ (float_eq (score r0) t = true
      -> out = Ok (FailResult (Some md) (fail_message e))).
Proof.
  intros Hu Hp Hl out. subst out.
  rewrite (validate_eq self value md w e t Hu), Hp.
  rewrite bool_decide_eq_true_2 by exact Hl. simpl.
  destruct (String.eqb_spec (lower (label r0)) e) as [Heq|Hne]; simpl.
  - destruct (float_gt (score r0) t) eqn:Hgt.
    + repeat split; try congruence.
      intros Heqb. apply SFeqb_not_lt in Heqb.
      unfold float_gt in Hgt. congruence.
    + repeat split; try congruence. intros [_ H]. discriminate.
  - repeat split; try congruence. intros [H _]. contradiction.
Qed.

(** C2: a [financial_tone] entry outside the three tones makes [validate]
    raise the assertion of [_unpack_metadata], whatever the text and the
    rest of the dictionary are, and the world is untouched: the classifier
    was not invoked. *)
Theorem invalid_tone_raises (self : FinancialTone) (value : string)
    (md : loc) (w : World) (d : gmap string PyVal) (v : PyVal) :
  heap w !! md = Some d ->
  d !! "financial_tone" = Some v ->
  (forall s, s ∈ TONES -> v <> PyStr s) ->
  validate self value md w =
  (Raise (AssertionError
     "The key `financial_tone` must be one of 'positive', 'negative', 'neutral."),
   w).
Proof.
  intros Hd Hv Hout. apply validate_unpack_raises.
  rewrite unpack_metadata_eq, Hd. simpl.
  unfold unpack_dict. rewrite Hv. simpl.
  destruct v as [| | | |s]; simpl; try reflexivity.
  destruct (bool_decide (s ∈ TONES)) eqn:Hs; [|reflexivity].
  apply bool_decide_eq_true in Hs. exfalso. exact (Hout s Hs eq_refl).
Qed.

(** C3: when the request unpacks and the classifier answers with the empty
    list, [validate] raises the [RuntimeError] of the upstream failure. *)
Theorem empty_result_raises (self : FinancialTone) (value : string)
    (md : loc) (w : World) (e : string) (t : float) :
  fst (_unpack_metadata md w) = Ok (e, t) ->
  _pipe self value = Ok [] ->
  fst (validate self value md w) =
  Raise (RuntimeError "Failed to get model prediction.").
Proof.
  intros Hu Hp. rewrite (validate_eq self value md w e t Hu), Hp.
  reflexivity.
Qed.

(** C4: a prediction whose label is not one of Positive, Negative, Neutral
    never yields a result: [validate] raises, and when the request unpacks
    the exception is the assertion on the label. *)
Theorem foreign_label_raises (self : FinancialTone) (value : string)
    (md : loc) (w : World) (r0 : Prediction) (rest : list Prediction) :
  _pipe self value = Ok (r0 :: rest) ->
  label r0 ∉ LABELS ->
  let out := fst (validate self value md w) in
  (exists x, out = Raise x)
  /\ (forall m, out <> Ok (PassResult m))
  /\ (forall e t, fst (_unpack_metadata md w) = Ok (e, t)
        -> out = Raise (AssertionError "")).
Proof.
  intros Hp Hl out.
  assert (Hok : forall e t, fst (_unpack_metadata md w) = Ok (e, t)
                  -> out = Raise (AssertionError "")).
  { intros e t Hu. subst out.
    rewrite (validate_eq self value md w e t Hu), Hp.
    rewrite bool_decide_eq_false_2 by exact Hl. reflexivity. }
  assert (Hex : exists x, out = Raise x).
  { destruct (fst (_unpack_metadata md w)) as [[e t]|x] eqn:Hu.
    - eexists. exact (Hok e t eq_refl).
    - exists x. subst out.
      rewrite (validate_unpack_raises self value md w x Hu). reflexivity. }
  split; [exact Hex|]. split; [|exact Hok].
  intros m Hm. destruct Hex as [x Hx]. congruence.
Qed.

(** C5: the message of a Fail result is the fixed sentence around the
    expected tone read from the request; it is the same whatever the
    classifier and the text were, so it depends on neither the predicted
    label nor the confidence. *)
Theorem fail_message_exact (self : FinancialTone) (value : string)
    (md : loc) (w : World) (m : option loc) (msg : string) :
  fst (validate self value md w) = Ok (FailResult m msg) ->
  (exists d e,
      heap w !! md = Some d
      /\ py_in (default (PyStr DEFAULT_TONE) (d !! "financial_tone")) TONES
         = Some e
      /\ msg = "The generated text didn't have tone " +:+ e +:+ ".")
  /\ (forall self' value' m' msg',
        fst (validate self' value' md w) = Ok (FailResult m' msg')
        -> msg' = msg).
Proof.
  intros Hv.
  destruct (fst (_unpack_metadata md w)) as [[e t]|x] eqn:Hu.
  2:{ rewrite (validate_unpack_raises self value md w x Hu) in Hv.
      discriminate. }
  assert (Hmsg : forall s0 v0 m0 msg0,
             fst (validate s0 v0 md w) = Ok (FailResult m0 msg0)
             -> msg0 = fail_message e).
  { intros s0 v0 m0 msg0 H0.
    rewrite (validate_eq s0 v0 md w e t Hu) in H0.
    destruct (_pipe s0 v0) as [[|r0 rest]|y]; try discriminate.
    destruct (bool_decide _); try discriminate. simpl in H0.
    destruct (_ && _); [discriminate|]. congruence. }
  split.
  - rewrite unpack_metadata_eq in Hu. simpl in Hu.
    destruct (heap w !! md) as [d|]; [|discriminate].
    exists d, e. split; [reflexivity|]. split.
    + exact (proj1 (unpack_dict_tone d e t Hu)).
    + exact (Hmsg self value m msg Hv).
  - intros self' value' m' msg' H'.
    rewrite (Hmsg self' value' m' msg' H'), (Hmsg self value m msg Hv).
    reflexivity.
Qed.

(** C6: a dictionary with neither key unpacks to ("neutral", 0.8), and a
    call on it returns what the same call returns when the dictionary at
    that reference spells these two values out, with the same lines
    printed and the same classifier invocations. *)
Theorem default_metadata (self : FinancialTone) (value : string) (md : loc)
    (w : World) (d d' : gmap string PyVal) :
  heap w !! md = Some d ->
  d !! "financial_tone" = None ->
  d !! "financial_tone_threshold" = None ->
  d' !! "financial_tone" = Some (PyStr "neutral") ->
  d' !! "financial_tone_threshold" = Some (PyFloat DEFAULT_THRESHOLD) ->
  let w' := mkWorld (<[md := d']> (heap w)) (stdout w) (pipe_calls w) in
  fst (_unpack_metadata md w) = Ok ("neutral", DEFAULT_THRESHOLD)
  /\ fst (validate self value md w) = fst (validate self value md w')
  /\ stdout (snd (validate self value md w))
     = stdout (snd (validate self value md w'))
  /\ pipe_calls (snd (validate self value md w))
     = pipe_calls (snd (validate self value md w')).
Proof.
  intros Hd Htone Hthr Htone' Hthr' w'.
  assert (Hu : fst (_unpack_metadata md w) = Ok ("neutral", DEFAULT_THRESHOLD)).
  { rewrite unpack_metadata_eq, Hd. simpl.
    unfold unpack_dict. rewrite Htone, Hthr. reflexivity. }
  assert (Hu' : fst (_unpack_metadata md w')
                = Ok ("neutral", DEFAULT_THRESHOLD)).
  { rewrite unpack_metadata_eq. subst w'. simpl.
    rewrite lookup_insert_eq.
    apply unpack_dict_explicit; [|exact Htone'|exact Hthr'].
    unfold TONES. set_solver. }
  split; [exact Hu|].
  rewrite (validate_eq self value md w _ _ Hu).
  rewrite (validate_eq self value md w' _ _ Hu').
  destruct (_pipe self value) as [[|r0 rest]|y]; try (repeat split; reflexivity).
  destruct (bool_decide _); repeat split; reflexivity.
Qed.

(** C7: a call leaves the store as it found it, and its result is the
    same before and after any other call; in particular the same call
    made twice in a row gives the same result twice. *)
Theorem validate_stateless (self : FinancialTone) (value value' : string)
    (md md' : loc) (w : World) :
  heap (snd (validate self value md w)) = heap w
  /\ fst (validate self value md (snd (validate self value md w)))
     = fst (validate self value md w)
  /\ fst (validate self value md (snd (validate self value' md' w)))
     = fst (validate self value md w).
Proof.
  split; [apply validate_heap|].
  split; apply validate_reads_heap, validate_heap.
Qed.

(** C8: without the [transformers] pipeline the constructor raises and
    yields no validator; a validator that was constructed was built from
    a pipeline that is present, so [validate] is never reached without
    one. *)
Theorem init_requires_pipeline (on_fail : option Callable)
    (kwargs : gmap string PyVal) (w : World) :
  (exists x, fst (__init__ None on_fail kwargs w) = Raise x)
  /\ (Validator__init__ on_fail kwargs = Ok tt
      -> __init__ None on_fail kwargs w =
         (Raise (ValueError
            "You must install transformers in order to use the FinancialTone validator.Install it using `pip install transformers`."),
          w))
  /\ (forall pipeline self,
        fst (__init__ pipeline on_fail kwargs w) = Ok self
        -> exists mk, pipeline = Some mk
             /\ mk "text-classification" "yiyanghkust/finbert-tone"
                = Ok (_pipe self)).
Proof.
  unfold __init__, mbind, M_bind, lift, raise.
  destruct (Validator__init__ on_fail kwargs) as [[]|x]; simpl.
  - split; [eexists; reflexivity|]. split; [reflexivity|].
    intros [mk|] self; simpl; [|discriminate].
    destruct (mk _ _) as [p|y] eqn:Hmk; simpl; [|discriminate].
    intros [= <-]. exists mk. split; [reflexivity|exact Hmk].
  - split; [eexists; reflexivity|]. split; [discriminate|].
    intros pipeline self H. discriminate.
Qed.

(** C9: [validate] writes nothing to the store, so the caller's
    dictionary is as it was; a Fail result holds the very reference the
    caller passed, a Pass result holds none. *)
Theorem validate_frame (self : FinancialTone) (value : string) (md : loc)
    (w : World) :
  heap (snd (validate self value md w)) = heap w
  /\ (forall m msg, fst (validate self value md w) = Ok (FailResult m msg)
        -> m = Some md)
  /\ (forall m, fst (validate self value md w) = Ok (PassResult m)
        -> m = None).
Proof.
  split; [apply validate_heap|].
  destruct (fst (_unpack_metadata md w)) as [[e t]|x] eqn:Hu.
  - rewrite (validate_eq self value md w e t Hu).
    destruct (_pipe self value) as [[|r0 rest]|y];
      try (split; intros; discriminate).
    destruct (bool_decide _); [|split; intros; discriminate]. simpl.
    destruct (_ && _); split; intros; congruence.
  - rewrite (validate_unpack_raises self value md w x Hu).
    split; intros; discriminate.
Qed.

(** C10: whatever float the threshold entry coerces to is the threshold
    used, with no check against the unit interval; when it is at least 1,
    a prediction of the label set with confidence in the unit interval
    yields Fail, whichever of the three labels it carries. *)
Theorem threshold_not_range_checked (self : FinancialTone) (value : string)
    (md : loc) (w : World) (d : gmap string PyVal) (e : string) (v : PyVal)
    (t : float) :
  heap w !! md = Some d ->
  py_in (default (PyStr DEFAULT_TONE) (d !! "financial_tone")) TONES = Some e ->
  d !! "financial_tone_threshold" = Some v ->
  py_float v = Ok t ->
  fst (_unpack_metadata md w) = Ok (e, t)
  /\ (forall r0 rest,
        float_ge t float_one = true ->
        _pipe self value = Ok (r0 :: rest) ->
        label r0 ∈ LABELS ->
        float_le float_zero (score r0) = true ->
        float_le (score r0) float_one = true ->
        fst (validate self value md w)
        = Ok (FailResult (Some md) (fail_message e))).
Proof.
  intros Hd Hin Hv Hf.
  assert (Hu : fst (_unpack_metadata md w) = Ok (e, t)).
  { rewrite unpack_metadata_eq, Hd. simpl.
    unfold unpack_dict. rewrite Hin, Hv. simpl. rewrite Hf. reflexivity. }
  split; [exact Hu|].
  intros r0 rest Hge Hp Hl _ Hle.
  rewrite (validate_eq self value md w e t Hu), Hp.
  rewrite bool_decide_eq_true_2 by exact Hl. simpl.
  unfold float_gt, float_ge, float_le in *.
  rewrite (SFleb_trans_not_lt (score r0) float_one t Hle Hge).
  rewrite andb_false_r. reflexivity.
Qed.

(** *** Further lemmas on floats and on the store *)

Lemma SFltb_nan_l (a : float) : SFltb S754_nan a = false.
Proof. reflexivity. Qed.

Lemma SFltb_nan_r (a : float) : SFltb a S754_nan = false.
Proof. destruct a; reflexivity. Qed.

Lemma SFltb_below_zero (t c : float) :
  SFltb t float_zero = true -> SFleb float_zero c = true -> SFltb t c = true.
Proof.
  unfold SFleb, SFltb, float_zero.
  destruct t as [st|st| |st mt et], c as [sc|sc| |sc mc ec]; simpl;
    try destruct st; try destruct sc; simpl;
    try reflexivity; try discriminate.
Qed.

Lemma unpack_metadata_heap (md : loc) (w1 w2 : World) :
  heap w1 = heap w2 ->
  fst (_unpack_metadata md w1) = fst (_unpack_metadata md w2).
Proof. intros Hh. rewrite !unpack_metadata_eq. simpl. rewrite Hh. reflexivity. Qed.

Lemma unpack_metadata_dict (md : loc) (w : World) (d : gmap string PyVal) :
  heap w !! md = Some d -> fst (_unpack_metadata md w) = unpack_dict d.
Proof. intros Hd. rewrite unpack_metadata_eq, Hd. reflexivity. Qed.

(** Two worlds in which the request unpacks alike give the same result,
    and append the same to both logs. *)
Lemma validate_same_unpack (self : FinancialTone) (value : string) (md : loc)
    (w1 w2 : World) :
  fst (_unpack_metadata md w1) = fst (_unpack_metadata md w2) ->
  stdout w1 = stdout w2 ->
  pipe_calls w1 = pipe_calls w2 ->
  fst (validate self value md w1) = fst (validate self value md w2)
  /\ stdout (snd (validate self value md w1))
     = stdout (snd (validate self value md w2))
  /\ pipe_calls (snd (validate self value md w1))
     = pipe_calls (snd (validate self value md w2)).
Proof.
  intros Hu Hs Hc.
  destruct (fst (_unpack_metadata md w2)) as [[e t]|x] eqn:Hu2.
  - rewrite (validate_eq self value md w1 e t Hu).
    rewrite (validate_eq self value md w2 e t Hu2).
    destruct (_pipe self value) as [[|r0 rest]|y]; simpl;
      try (rewrite Hs, Hc; repeat split; reflexivity).
    destruct (bool_decide _); simpl; rewrite Hs, Hc; repeat split; reflexivity.
  - rewrite (validate_unpack_raises self value md w1 x Hu).
    rewrite (validate_unpack_raises self value md w2 x Hu2).
    repeat split; assumption.
Qed.

Lemma validate_same_dict (self : FinancialTone) (value : string) (md : loc)
    (w : World) (d d' : gmap string PyVal) :
  heap w !! md = Some d ->
  unpack_dict d' = unpack_dict d ->
  fst (validate self value md (store_dict w md d'))
  = fst (validate self value md w)
  /\ stdout (snd (validate self value md (store_dict w md d')))
     = stdout (snd (validate self value md w))
  /\ pipe_calls (snd (validate self value md (store_dict w md d')))
     = pipe_calls (snd (validate self value md w)).
Proof.
  intros Hd Heq. apply validate_same_unpack; try reflexivity.
  rewrite (unpack_metadata_dict md w d Hd).
  rewrite (unpack_metadata_dict md (store_dict w md d') d').
  - exact Heq.
  - unfold store_dict. simpl. apply lookup_insert_eq.
Qed.

(** *** Effects of a call on the two logs *)

(** X1: a call whose request unpacks invokes the classifier exactly once,
    on the text it was given, whatever the classifier answers; a call
    whose request is rejected does not invoke it; nothing is cached, the
    same call made again invokes the classifier again. *)
Theorem validate_calls_classifier_once (self : FinancialTone)
    (value : string) (md : loc) (w : World) :
  (forall e t, fst (_unpack_metadata md w) = Ok (e, t) ->
     pipe_calls (snd (validate self value md w)) = (pipe_calls w ++ [value])%list
     /\ pipe_calls (snd (validate self value md
                           (snd (validate self value md w))))
        = (pipe_calls w ++ [value; value])%list)
  /\ (forall x, fst (_unpack_metadata md w) = Raise x ->
        pipe_calls (snd (validate self value md w)) = pipe_calls w).
Proof.
  split.
  - intros e t Hu.
    assert (H1 : forall w0, fst (_unpack_metadata md w0) = Ok (e, t) ->
              pipe_calls (snd (validate self value md w0))
              = (pipe_calls w0 ++ [value])%list).
    { intros w0 Hu0. rewrite (validate_eq self value md w0 e t Hu0).
      destruct (_pipe self value) as [[|r0 rest]|y]; try reflexivity.
      destruct (bool_decide _); reflexivity. }
    split; [exact (H1 w Hu)|].
    rewrite H1.
    + rewrite (H1 w Hu), <- app_assoc. reflexivity.
    + rewrite <- Hu. apply unpack_metadata_heap, validate_heap.
  - intros x Hu. rewrite (validate_unpack_raises self value md w x Hu).
    reflexivity.
Qed.

(** X2: a call that returns a result has printed exactly one line, the
    label and score of the first prediction; a call that raises has
    printed nothing. *)
Theorem validate_prints_prediction (self : FinancialTone) (value : string)
    (md : loc) (w : World) :
  (forall r, fst (validate self value md w) = Ok r ->
     exists r0 rest,
       _pipe self value = Ok (r0 :: rest)
       /\ stdout (snd (validate self value md w))
          = (stdout w ++ [LinePrediction (label r0) (score r0)])%list)
  /\ (forall x, fst (validate self value md w) = Raise x ->
        stdout (snd (validate self value md w)) = stdout w).
Proof.
  destruct (fst (_unpack_metadata md w)) as [[e t]|y] eqn:Hu.
  - rewrite (validate_eq self value md w e t Hu).
    destruct (_pipe self value) as [[|r0 rest]|z]; simpl;
      try (split; [intros; discriminate|intros; reflexivity]).
    destruct (bool_decide _); simpl.
    + split; [|intros; discriminate].
      intros r _. exists r0, rest. split; reflexivity.
    + split; [intros; discriminate|intros; reflexivity].
  - rewrite (validate_unpack_raises self value md w y Hu). simpl.
    split; [intros; discriminate|intros; reflexivity].
Qed.

(** *** The classifier's answer *)

(** X3: only the first prediction of the classifier's answer is looked
    at: two classifiers whose answers start with the same prediction give
    the same result and the same world. *)
Theorem validate_first_prediction_only (self1 self2 : FinancialTone)
    (value : string) (md : loc) (w : World) (r0 : Prediction)
    (rest1 rest2 : list Prediction) :
  _pipe self1 value = Ok (r0 :: rest1) ->
  _pipe self2 value = Ok (r0 :: rest2) ->
  validate self1 value md w = validate self2 value md w.
Proof.
  intros H1 H2.
  destruct (fst (_unpack_metadata md w)) as [[e t]|x] eqn:Hu.
  - rewrite (validate_eq self1 value md w e t Hu), H1.
    rewrite (validate_eq self2 value md w e t Hu), H2. reflexivity.
  - rewrite (validate_unpack_raises self1 value md w x Hu).
    rewrite (validate_unpack_raises self2 value md w x Hu). reflexivity.
Qed.

(** X4: an exception raised by the classifier is not caught: [validate]
    raises it, with the invocation logged, nothing printed and the store
    as it was. *)
Theorem classifier_error_propagates (self : FinancialTone) (value : string)
    (md : loc) (w : World) (e : string) (t : float) (x : exn) :
  fst (_unpack_metadata md w) = Ok (e, t) ->
  _pipe self value = Raise x ->
  validate self value md w
  = (Raise x, mkWorld (heap w) (stdout w) (pipe_calls w ++ [value])%list).
Proof.
  intros Hu Hp. rewrite (validate_eq self value md w e t Hu), Hp.
  reflexivity.
Qed.

(** X10: whatever the classifier answers, a Pass was earned: the request
    unpacked to a tone of the three, the first prediction carries a label
    of the label set whose lower case is that tone, and its score is
    strictly above the threshold. *)
Theorem validate_pass_sound (self : FinancialTone) (value : string)
    (md : loc) (w : World) (m : option loc) :
  fst (validate self value md w) = Ok (PassResult m) ->
  exists e t r0 rest,
    fst (_unpack_metadata md w) = Ok (e, t)
    /\ e ∈ TONES
    /\ _pipe self value = Ok (r0 :: rest)
    /\ label r0 ∈ LABELS
    /\ lower (label r0) = e
    /\ float_gt (score r0) t = true.
Proof.
  intros Hv.
  destruct (fst (_unpack_metadata md w)) as [[e t]|x] eqn:Hu.
  2:{ rewrite (validate_unpack_raises self value md w x Hu) in Hv.
      discriminate. }
  rewrite (validate_eq self value md w e t Hu) in Hv.
  destruct (_pipe self value) as [[|r0 rest]|y]; try discriminate.
  destruct (bool_decide (label r0 ∈ LABELS)) eqn:Hl; try discriminate.
  simpl in Hv.
  destruct (String.eqb_spec (lower (label r0)) e) as [Heq|Hne];
    simpl in Hv; [|discriminate].
  destruct (float_gt (score r0) t) eqn:Hgt; [|discriminate].
  exists e, t, r0, rest. repeat split; try assumption; try reflexivity.
  - rewrite unpack_metadata_eq in Hu. simpl in Hu.
    destruct (heap w !! md) as [d|]; [|discriminate].
    exact (proj2 (unpack_dict_tone d e t Hu)).
  - apply bool_decide_eq_true in Hl. exact Hl.
Qed.

(** X11: there are exactly three failure messages a call can produce,
    one per tone. *)
Theorem fail_messages_three (self : FinancialTone) (value : string)
    (md : loc) (w : World) (m : option loc) (msg : string) :
  fst (validate self value md w) = Ok (FailResult m msg) ->
  msg ∈ ["The generated text didn't have tone positive.";
         "The generated text didn't have tone negative.";
         "The generated text didn't have tone neutral."].
Proof.
  intros Hv.
  destruct (fst (_unpack_metadata md w)) as [[e t]|x] eqn:Hu.
  2:{ rewrite (validate_unpack_raises self value md w x Hu) in Hv.
      discriminate. }
  assert (He : e ∈ TONES).
  { rewrite unpack_metadata_eq in Hu. simpl in Hu.
    destruct (heap w !! md) as [d|]; [|discriminate].
    exact (proj2 (unpack_dict_tone d e t Hu)). }
  rewrite (validate_eq self value md w e t Hu) in Hv.
  destruct (_pipe self value) as [[|r0 rest]|y]; try discriminate.
  destruct (bool_decide _); try discriminate. simpl in Hv.
  destruct (_ && _); [discriminate|]. injection Hv as _ <-.
  unfold TONES in He.
  apply elem_of_cons in He as [->|He]; [set_solver|].
  apply elem_of_cons in He as [->|He]; [set_solver|].
  apply elem_of_cons in He as [->|He]; [set_solver|].
  inversion He.
Qed.

(** *** How the request is read *)

(** X5: only the two recognised keys are read: replacing the dictionary
    by one that agrees with it on both gives the same result, the same
    line printed and the same classifier invocation. *)
Theorem validate_ignores_other_keys (self : FinancialTone) (value : string)
    (md : loc) (w : World) (d d' : gmap string PyVal) :
  heap w !! md = Some d ->
  d' !! "financial_tone" = d !! "financial_tone" ->
  d' !! "financial_tone_threshold" = d !! "financial_tone_threshold" ->
  fst (validate self value md (store_dict w md d'))
  = fst (validate self value md w)
  /\ stdout (snd (validate self value md (store_dict w md d')))
     = stdout (snd (validate self value md w))
  /\ pipe_calls (snd (validate self value md (store_dict w md d')))
     = pipe_calls (snd (validate self value md w)).
Proof.
  intros Hd Htone Hthr. apply (validate_same_dict self value md w d d' Hd).
  unfold unpack_dict. rewrite Htone, Hthr. reflexivity.
Qed.

(** X6: when the tone is accepted and [float] rejects the threshold
    entry, [validate] raises the error of [float] and the world is as it
    was: the classifier is not invoked. *)
Theorem threshold_coercion_error (self : FinancialTone) (value : string)
    (md : loc) (w : World) (d : gmap string PyVal) (e : string) (v : PyVal)
    (x : exn) :
  heap w !! md = Some d ->
  py_in (default (PyStr DEFAULT_TONE) (d !! "financial_tone")) TONES = Some e ->
  d !! "financial_tone_threshold" = Some v ->
  py_float v = Raise x ->
  validate self value md w = (Raise x, w).
Proof.
  intros Hd Hin Hv Hf. apply validate_unpack_raises.
  rewrite (unpack_metadata_dict md w d Hd).
  unfold unpack_dict. rewrite Hin, Hv. simpl. rewrite Hf. reflexivity.
Qed.

(** X7: a threshold entry acts only through the float it coerces to: an
    [int], [bool] or [str] entry gives the same result, line and
    invocation as the float [float] makes of it. *)
Theorem threshold_coercion_transparent (self : FinancialTone)
    (value : string) (md : loc) (w : World) (d : gmap string PyVal)
    (v : PyVal) (t : float) :
  heap w !! md = Some d ->
  d !! "financial_tone_threshold" = Some v ->
  py_float v = Ok t ->
  let d' := <["financial_tone_threshold" := PyFloat t]> d in
  fst (validate self value md (store_dict w md d'))
  = fst (validate self value md w)
  /\ stdout (snd (validate self value md (store_dict w md d')))
     = stdout (snd (validate self value md w))
  /\ pipe_calls (snd (validate self value md (store_dict w md d')))
     = pipe_calls (snd (validate self value md w)).
Proof.
  intros Hd Hv Hf d'. apply (validate_same_dict self value md w d d' Hd).
  unfold unpack_dict, d'.
  rewrite lookup_insert_ne by discriminate.
  rewrite lookup_insert_eq, Hv. simpl. rewrite Hf. reflexivity.
Qed.

(** X12: each default applies on its own: a dictionary without the tone
    acts as the same dictionary with tone "neutral", and a dictionary
    without the threshold as the same dictionary with threshold 0.8. *)
Theorem default_per_key (self : FinancialTone) (value : string) (md : loc)
    (w : World) (d : gmap string PyVal) :
  heap w !! md = Some d ->
  (d !! "financial_tone" = None ->
     let d' := <["financial_tone" := PyStr DEFAULT_TONE]> d in
     fst (validate self value md (store_dict w md d'))
     = fst (validate self value md w)
     /\ stdout (snd (validate self value md (store_dict w md d')))
        = stdout (snd (validate self value md w))
     /\ pipe_calls (snd (validate self value md (store_dict w md d')))
        = pipe_calls (snd (validate self value md w)))
  /\ (d !! "financial_tone_threshold" = None ->
        let d' := <["financial_tone_threshold" := PyFloat DEFAULT_THRESHOLD]> d in
        fst (validate self value md (store_dict w md d'))
        = fst (validate self value md w)
        /\ stdout (snd (validate self value md (store_dict w md d')))
           = stdout (snd (validate self value md w))
        /\ pipe_calls (snd (validate self value md (store_dict w md d')))
           = pipe_calls (snd (validate self value md w))).
Proof.
  intros Hd. split; intros Hnone d';
    apply (validate_same_dict self value md w d d' Hd);
    unfold unpack_dict, d'.
  - rewrite lookup_insert_eq, Hnone.
    rewrite lookup_insert_ne by discriminate. reflexivity.
  - rewrite lookup_insert_ne by discriminate.
    rewrite lookup_insert_eq, Hnone. reflexivity.
Qed.

(** *** Thresholds and scores off the unit interval *)

(** X8: a NaN never passes: when the threshold or the score of the first
    prediction is NaN, a call that gets as far as the comparison returns
    Fail, also for the matching label. *)
Theorem nan_never_passes (self : FinancialTone) (value : string) (md : loc)
    (w : World) (e : string) (t : float) (r0 : Prediction)
    (rest : list Prediction) :
  fst (_unpack_metadata md w) = Ok (e, t) ->
  _pipe self value = Ok (r0 :: rest) ->
  label r0 ∈ LABELS ->
  t = S754_nan \/ score r0 = S754_nan ->
  fst (validate self value md w) = Ok (FailResult (Some md) (fail_message e)).
Proof.
  intros Hu Hp Hl Hnan.
  rewrite (validate_eq self value md w e t Hu), Hp.
  rewrite bool_decide_eq_true_2 by exact Hl. simpl.
  assert (Hgt : float_gt (score r0) t = false).
  { unfold float_gt. destruct Hnan as [-> | ->].
    - apply SFltb_nan_l.
    - apply SFltb_nan_r. }
  rewrite Hgt, andb_false_r. reflexivity.
Qed.

(** X9: a threshold below zero switches the confidence test off: with a
    score that is at least zero, the result is Pass exactly when the label
    matches the tone. *)
Theorem negative_threshold_label_only (self : FinancialTone)
    (value : string) (md : loc) (w : World) (e : string) (t : float)
    (r0 : Prediction) (rest : list Prediction) :
  fst (_unpack_metadata md w) = Ok (e, t) ->
  _pipe self value = Ok (r0 :: rest) ->
  label r0 ∈ LABELS ->
  float_gt float_zero t = true ->
  float_le float_zero (score r0) = true ->
  fst (validate self value md w)
  = Ok (if String.eqb (lower (label r0)) e
        then PassResult None
        else FailResult (Some md) (fail_message e)).
Proof.
  intros Hu Hp Hl Hneg Hpos.
  rewrite (validate_eq self value md w e t Hu), Hp.
  rewrite bool_decide_eq_true_2 by exact Hl. simpl.
  unfold float_gt, float_le in *.
  rewrite (SFltb_below_zero t (score r0) Hneg Hpos), andb_true_r.
  reflexivity.
Qed.

(** *** Construction *)

(** X13: the constructor returns a validator exactly when the base
    constructor returned, the pipeline factory is present, and the factory
    built the text-classification pipeline of the finbert-tone model; the
    validator then holds that pipeline. *)
Theorem init_success_iff (pipeline : option PipelineFactory)
    (on_fail : option Callable) (kwargs : gmap string PyVal) (w : World)
    (self : FinancialTone) :
  fst (__init__ pipeline on_fail kwargs w) = Ok self
  <-> Validator__init__ on_fail kwargs = Ok tt
      /\ exists mk, pipeline = Some mk
           /\ mk "text-classification" "yiyanghkust/finbert-tone"
              = Ok (_pipe self).
Proof.
  unfold __init__, mbind, M_bind, lift, raise, print, mret, M_ret.
  destruct self as [p0]. simpl. split.
  - destruct (Validator__init__ on_fail kwargs) as [[]|x]; [|discriminate].
    destruct pipeline as [mk|]; simpl; [|discriminate].
    destruct (mk _ _) as [p|y] eqn:Hmk; simpl; [|discriminate].
    intros [= <-]. split; [reflexivity|]. exists mk. split; [reflexivity|exact Hmk].
  - intros [Hb [mk [-> Hmk]]]. rewrite Hb. simpl. rewrite Hmk. reflexivity.
Qed.

(** X14: the constructor never touches the store or the classifier log;
    it prints its one line exactly when it returns a validator, and
    prints nothing when it raises. *)
Theorem init_frame (pipeline : option PipelineFactory)
    (on_fail : option Callable) (kwargs : gmap string PyVal) (w : World) :
  let w' := snd (__init__ pipeline on_fail kwargs w) in
  heap w' = heap w
  /\ pipe_calls w' = pipe_calls w
  /\ (forall self, fst (__init__ pipeline on_fail kwargs w) = Ok self ->
        stdout w' = (stdout w ++ [LineText "Pipeline setup successfully."])%list)
  /\ (forall x, fst (__init__ pipeline on_fail kwargs w) = Raise x ->
        w' = w).
Proof.
  unfold __init__, mbind, M_bind, lift, raise, print, mret, M_ret.
  destruct (Validator__init__ on_fail kwargs) as [[]|x0]; simpl.
  - destruct pipeline as [mk|]; simpl.
    + destruct (mk _ _) as [p|y]; simpl;
        repeat split; intros; try reflexivity; discriminate.
    + repeat split; intros; try reflexivity; discriminate.
  - repeat split; intros; try reflexivity; discriminate.
Qed.

(** *** Loading the module *)

(** X15: a missing transformers library does not stop the module from
    loading: whatever the module loads to then has no pipeline, and every
    construction of the validator raises; with both libraries missing the
    module loads and the nltk data is not touched. *)
Theorem missing_transformers_deferred (import_nltk : Imported (Nltk NltkData))
    (s : NltkData) :
  load_module ImportError ImportError s = (Ok (mkGlobals None None), s)
  /\ (forall g, fst (load_module ImportError import_nltk s) = Ok g ->
        pipeline g = None
        /\ forall on_fail kwargs w,
             (exists x, fst (__init__ (pipeline g) on_fail kwargs w) = Raise x)
             /\ (Validator__init__ on_fail kwargs = Ok tt ->
                 exists msg,
                   __init__ (pipeline g) on_fail kwargs w
                   = (Raise (ValueError msg), w))).
Proof.
  split; [reflexivity|].
  intros g Hg.
  assert (Hp : pipeline g = None).
  { unfold load_module in Hg.
    destruct import_nltk as [n| |x]; simpl in Hg; try discriminate.
    - destruct (nltk_data_find n "tokenizers/punkt" s);
        simpl in Hg; try discriminate.
      + injection Hg as <-. reflexivity.
      + destruct (nltk_download n "punkt" s) as [[b|y] s'];
          simpl in Hg; try discriminate.
        injection Hg as <-. reflexivity.
    - injection Hg as <-. reflexivity. }
  split; [exact Hp|]. rewrite Hp. intros on_fail kwargs w.
  unfold __init__, mbind, M_bind, lift, raise.
  destruct (Validator__init__ on_fail kwargs) as [[]|x]; simpl.
  - split; [eexists; reflexivity|]. intros _. eexists. reflexivity.
  - split; [eexists; reflexivity|]. discriminate.
Qed.

(** X16: loading the module changes the nltk data only by the download of
    "punkt", and only when nltk was imported and the lookup of
    "tokenizers/punkt" raised [LookupError]; without nltk the module loads
    all the same. *)
Theorem punkt_fetched_only_when_missing
    (import_transformers : Imported PipelineFactory)
    (import_nltk : Imported (Nltk NltkData)) (s : NltkData) :
  (snd (load_module import_transformers import_nltk s) <> s ->
     exists n,
       import_nltk = ImportOk n
       /\ nltk_data_find n "tokenizers/punkt" s = LookupError
       /\ snd (load_module import_transformers import_nltk s)
          = snd (nltk_download n "punkt" s))
  /\ (forall n, import_nltk = ImportOk n ->
        nltk_data_find n "tokenizers/punkt" s = Found ->
        snd (load_module import_transformers import_nltk s) = s)
  /\ (import_nltk = ImportError ->
        forall x, fst (load_module import_transformers import_nltk s) = Raise x ->
                  import_transformers = ImportRaise x).
Proof.
  unfold load_module. split; [|split].
  - intros Hne.
    destruct import_transformers as [p| |x], import_nltk as [n| |y];
      simpl in *; try contradiction;
      destruct (nltk_data_find n "tokenizers/punkt" s) eqn:Hf;
      simpl in *; try contradiction;
      exists n; (split; [reflexivity|]); (split; [exact Hf|]);
      destruct (nltk_download n "punkt" s) as [[b|z] s']; reflexivity.
  - intros n -> Hf.
    destruct import_transformers as [p| |x]; simpl; try reflexivity;
      rewrite Hf; reflexivity.
  - intros -> x.
    destruct import_transformers as [p| |y]; simpl; try discriminate.
    intros [= ->]. reflexivity.
Qed.

(** X17: when the download succeeds and the lookup finds the data
    afterwards, loading the module again neither downloads nor changes
    anything, and binds the same names. *)
Theorem punkt_fetch_idempotent
    (import_transformers : Imported PipelineFactory) (n : Nltk NltkData)
    (s s' : NltkData) (g : Globals) :
  load_module import_transformers (ImportOk n) s = (Ok g, s') ->
  nltk_data_find n "tokenizers/punkt" s' = Found ->
  load_module import_transformers (ImportOk n) s' = (Ok g, s').
Proof.
  unfold load_module. intros Hl Hf.
  destruct import_transformers as [p| |x]; simpl in *; try discriminate;
    rewrite Hf;
    destruct (nltk_data_find n "tokenizers/punkt" s); simpl in Hl;
      try discriminate;
    try (destruct (nltk_download n "punkt" s) as [[b|z] s0]; simpl in Hl;
         try discriminate);
    injection Hl as <- _; reflexivity.
Qed.

End Validator.

(** ** The examples of use, evaluated *)

Local Abbreviation run_validate self value d :=
  (fst (validate Demo.float_of_str self value 1%positive (Demo.world d))).

(** prediction (Neutral, 0.9), empty metadata: Pass. *)
Example example_neutral_default :
  run_validate (Demo.constant "Neutral" Demo.f0_9) "I'm okay." Demo.empty_md
  = Ok (PassResult None).
Proof. vm_compute. reflexivity. Qed.

(** prediction (Positive, 0.95), tone positive: Pass. *)
Example example_positive_pass :
  run_validate (Demo.constant "Positive" Demo.f0_95)
    "This is an exciting opportunity." Demo.positive_md
  = Ok (PassResult None).
Proof. vm_compute. reflexivity. Qed.

(** prediction (Positive, 0.8), tone positive, default threshold: Fail. *)
Example example_at_threshold_fails :
  run_validate (Demo.constant "Positive" DEFAULT_THRESHOLD)
    "This is an interesting increase." Demo.positive_md
  = Ok (FailResult (Some 1%positive)
          "The generated text didn't have tone positive.").
Proof. vm_compute. reflexivity. Qed.

(** prediction (Negative, 0.99), tone positive: Fail. *)
Example example_wrong_label_fails :
  run_validate (Demo.constant "Negative" Demo.f0_99)
    "This is an interesting increase." Demo.positive_md
  = Ok (FailResult (Some 1%positive)
          "The generated text didn't have tone positive.").
Proof. vm_compute. reflexivity. Qed.

(** The default threshold is the double nearest to 4/5. *)
Example default_threshold_is_0_8 :
  match float_of_int 4, float_of_int 5 with
  | Ok a, Ok b => SFdiv prec emax a b = DEFAULT_THRESHOLD
  | _, _ => False
  end.
Proof. vm_compute. reflexivity. Qed.

Example float_of_int_one : float_of_int 1 = Ok float_one.
Proof. vm_compute. reflexivity. Qed.

Example float_of_int_rounds_to_even :
  float_of_int (2 ^ 53 + 1) = float_of_int (2 ^ 53).
Proof. vm_compute. reflexivity. Qed.

Example float_of_int_overflow :
  float_of_int (2 ^ 1024 - 1)
  = Raise (OverflowError "int too large to convert to float").
Proof. vm_compute. reflexivity. Qed.

Example lower_labels : map lower LABELS = TONES.
Proof. reflexivity. Qed.

(** ** The theorems at concrete requests *)

Lemma validate_pass_iff_witness :
  fst (_unpack_metadata Demo.float_of_str 1%positive
         (Demo.world Demo.positive_md))
  = Ok ("positive", DEFAULT_THRESHOLD)
  /\ _pipe (Demo.constant "Positive" DEFAULT_THRESHOLD)
       "This is an interesting increase."
     = Ok [mkPrediction "Positive" DEFAULT_THRESHOLD]
  /\ "Positive" ∈ LABELS
  /\ float_eq DEFAULT_THRESHOLD DEFAULT_THRESHOLD = true
  /\ run_validate (Demo.constant "Positive" DEFAULT_THRESHOLD)
       "This is an interesting increase." Demo.positive_md
     = Ok (FailResult (Some 1%positive) (fail_message "positive")).
Proof.
  assert (Hl : "Positive" ∈ LABELS)     by exact (proj1 (bool_decide_eq_true ("Positive" ∈ LABELS)) eq_refl).
  do 4 (split; [first [reflexivity | exact Hl]|]).
  exact (proj2 (proj2
    (validate_pass_iff Demo.float_of_str
       (Demo.constant "Positive" DEFAULT_THRESHOLD)
       "This is an interesting increase." 1%positive
       (Demo.world Demo.positive_md) "positive" DEFAULT_THRESHOLD
       (mkPrediction "Positive" DEFAULT_THRESHOLD) []
       eq_refl eq_refl Hl)) eq_refl).
Defined.

Lemma invalid_tone_raises_witness :
  heap (Demo.world Demo.bullish_md) !! 1%positive = Some Demo.bullish_md
  /\ Demo.bullish_md !! "financial_tone" = Some (PyStr "bullish")
  /\ (forall s, s ∈ TONES -> PyStr "bullish" <> PyStr s)
  /\ validate Demo.float_of_str (Demo.constant "Positive" Demo.f0_99)
       "This is an exciting opportunity." 1%positive
       (Demo.world Demo.bullish_md)
     = (Raise (AssertionError
          "The key `financial_tone` must be one of 'positive', 'negative', 'neutral."),
        Demo.world Demo.bullish_md).
Proof.
  assert (Hout : forall s, s ∈ TONES -> PyStr "bullish" <> PyStr s).
  { intros s Hs [= <-].
    exact (proj1 (bool_decide_eq_false ("bullish" ∈ TONES)) eq_refl Hs). }
  do 3 (split; [first [reflexivity | exact Hout]|]).
  exact (invalid_tone_raises Demo.float_of_str
           (Demo.constant "Positive" Demo.f0_99)
           "This is an exciting opportunity." 1%positive
           (Demo.world Demo.bullish_md) Demo.bullish_md (PyStr "bullish")
           eq_refl eq_refl Hout).
Defined.

Lemma empty_result_raises_witness :
  fst (_unpack_metadata Demo.float_of_str 1%positive
         (Demo.world Demo.empty_md))
  = Ok ("neutral", DEFAULT_THRESHOLD)
  /\ _pipe Demo.silent "I'm okay." = Ok []
  /\ run_validate Demo.silent "I'm okay." Demo.empty_md
     = Raise (RuntimeError "Failed to get model prediction.").
Proof.
  do 2 (split; [first [reflexivity]|]).
  exact (empty_result_raises Demo.float_of_str Demo.silent "I'm okay."
           1%positive (Demo.world Demo.empty_md) "neutral" DEFAULT_THRESHOLD
           eq_refl eq_refl).
Defined.

Lemma foreign_label_raises_witness :
  _pipe (Demo.constant "POSITIVE" Demo.f0_99) "This is an exciting opportunity."
  = Ok [mkPrediction "POSITIVE" Demo.f0_99]
  /\ ("POSITIVE" ∉ LABELS)
  /\ fst (_unpack_metadata Demo.float_of_str 1%positive
            (Demo.world Demo.positive_md))
     = Ok ("positive", DEFAULT_THRESHOLD)
  /\ run_validate (Demo.constant "POSITIVE" Demo.f0_99)
       "This is an exciting opportunity." Demo.positive_md
     = Raise (AssertionError "").
Proof.
  assert (Hl : "POSITIVE" ∉ LABELS)
    by exact (proj1 (bool_decide_eq_false ("POSITIVE" ∈ LABELS)) eq_refl).
  do 3 (split; [first [reflexivity | exact Hl]|]).
  exact (proj2 (proj2
    (foreign_label_raises Demo.float_of_str
       (Demo.constant "POSITIVE" Demo.f0_99)
       "This is an exciting opportunity." 1%positive
       (Demo.world Demo.positive_md) (mkPrediction "POSITIVE" Demo.f0_99) []
       eq_refl Hl)) "positive" DEFAULT_THRESHOLD eq_refl).
Defined.

Lemma fail_message_exact_witness :
  run_validate (Demo.constant "Negative" Demo.f0_99)
    "This is an interesting increase." Demo.positive_md
  = Ok (FailResult (Some 1%positive)
          "The generated text didn't have tone positive.")
  /\ forall self' value' m' msg',
       fst (validate Demo.float_of_str self' value' 1%positive
              (Demo.world Demo.positive_md))
       = Ok (FailResult m' msg')
       -> msg' = "The generated text didn't have tone positive.".
Proof.
  split; [reflexivity|].
  exact (proj2
    (fail_message_exact Demo.float_of_str
       (Demo.constant "Negative" Demo.f0_99)
       "This is an interesting increase." 1%positive
       (Demo.world Demo.positive_md) (Some 1%positive)
       "The generated text didn't have tone positive." eq_refl)).
Defined.

Lemma default_metadata_witness :
  heap (Demo.world Demo.empty_md) !! 1%positive = Some Demo.empty_md
  /\ Demo.empty_md !! "financial_tone" = None
  /\ Demo.empty_md !! "financial_tone_threshold" = None
  /\ Demo.neutral_md !! "financial_tone" = Some (PyStr "neutral")
  /\ Demo.neutral_md !! "financial_tone_threshold"
     = Some (PyFloat DEFAULT_THRESHOLD)
  /\ run_validate (Demo.constant "Neutral" Demo.f0_9) "I'm okay." Demo.empty_md
     = fst (validate Demo.float_of_str (Demo.constant "Neutral" Demo.f0_9)
              "I'm okay." 1%positive
              (mkWorld (<[1%positive := Demo.neutral_md]>
                          (heap (Demo.world Demo.empty_md)))
                       (stdout (Demo.world Demo.empty_md))
                       (pipe_calls (Demo.world Demo.empty_md)))).
Proof.
  do 5 (split; [first [reflexivity]|]).
  exact (proj1 (proj2
    (default_metadata Demo.float_of_str (Demo.constant "Neutral" Demo.f0_9)
       "I'm okay." 1%positive (Demo.world Demo.empty_md)
       Demo.empty_md Demo.neutral_md
       eq_refl eq_refl eq_refl eq_refl eq_refl))).
Defined.

Lemma init_requires_pipeline_witness :
  Demo.Validator__init__ None ∅ = Ok tt
  /\ __init__ unit Demo.Validator__init__ None None ∅ (Demo.world Demo.empty_md)
     = (Raise (ValueError
          "You must install transformers in order to use the FinancialTone validator.Install it using `pip install transformers`."),
        Demo.world Demo.empty_md).
Proof.
  split; [reflexivity|].
  exact (proj1 (proj2
    (init_requires_pipeline unit Demo.Validator__init__ None ∅
       (Demo.world Demo.empty_md))) eq_refl).
Defined.

Lemma validate_frame_witness :
  run_validate (Demo.constant "Negative" Demo.f0_99)
    "This is an interesting increase." Demo.positive_md
  = Ok (FailResult (Some 1%positive) (fail_message "positive"))
  /\ heap (snd (validate Demo.float_of_str (Demo.constant "Negative" Demo.f0_99)
                  "This is an interesting increase." 1%positive
                  (Demo.world Demo.positive_md)))
     = heap (Demo.world Demo.positive_md).
Proof.
  split; [reflexivity|].
  exact (proj1
    (validate_frame Demo.float_of_str (Demo.constant "Negative" Demo.f0_99)
       "This is an interesting increase." 1%positive
       (Demo.world Demo.positive_md))).
Defined.

Lemma threshold_not_range_checked_witness :
  heap (Demo.world Demo.strict_md) !! 1%positive = Some Demo.strict_md
  /\ py_in (default (PyStr DEFAULT_TONE) (Demo.strict_md !! "financial_tone"))
       TONES = Some "positive"
  /\ Demo.strict_md !! "financial_tone_threshold" = Some (PyFloat Demo.f1_5)
  /\ py_float Demo.float_of_str (PyFloat Demo.f1_5) = Ok Demo.f1_5
  /\ float_ge Demo.f1_5 float_one = true
  /\ "Positive" ∈ LABELS
  /\ float_le float_zero float_one = true
  /\ float_le float_one float_one = true
  /\ run_validate (Demo.constant "Positive" float_one)
       "This is an exciting opportunity." Demo.strict_md
     = Ok (FailResult (Some 1%positive) (fail_message "positive")).
Proof.
  assert (Hl : "Positive" ∈ LABELS)     by exact (proj1 (bool_decide_eq_true ("Positive" ∈ LABELS)) eq_refl).
  do 8 (split; [first [reflexivity | exact Hl]|]).
  exact (proj2
    (threshold_not_range_checked Demo.float_of_str
       (Demo.constant "Positive" float_one)
       "This is an exciting opportunity." 1%positive
       (Demo.world Demo.strict_md) Demo.strict_md "positive"
       (PyFloat Demo.f1_5) Demo.f1_5 eq_refl eq_refl eq_refl eq_refl)
    (mkPrediction "Positive" float_one) [] eq_refl eq_refl Hl eq_refl eq_refl).
Defined.

(** ** The further properties at concrete requests *)

Local Abbreviation run self value d :=
  (validate Demo.float_of_str self value 1%positive (Demo.world d)).

Lemma validate_calls_classifier_once_witness :
  fst (_unpack_metadata Demo.float_of_str 1%positive
         (Demo.world Demo.positive_md))
  = Ok ("positive", DEFAULT_THRESHOLD)
  /\ pipe_calls (snd (run (Demo.constant "Negative" Demo.f0_99)
                        "This is an interesting increase." Demo.positive_md))
     = ["This is an interesting increase."].
Proof.
  split; [reflexivity|].
  exact (proj1 (proj1
    (validate_calls_classifier_once Demo.float_of_str
       (Demo.constant "Negative" Demo.f0_99)
       "This is an interesting increase." 1%positive
       (Demo.world Demo.positive_md))
    "positive" DEFAULT_THRESHOLD eq_refl)).
Defined.

Lemma validate_prints_prediction_witness :
  fst (run (Demo.constant "Neutral" Demo.f0_9) "I'm okay." Demo.empty_md)
  = Ok (PassResult None)
  /\ exists r0 rest,
       _pipe (Demo.constant "Neutral" Demo.f0_9) "I'm okay." = Ok (r0 :: rest)
       /\ stdout (snd (run (Demo.constant "Neutral" Demo.f0_9) "I'm okay."
                         Demo.empty_md))
          = ([] ++ [LinePrediction (label r0) (score r0)])%list.
Proof.
  split; [reflexivity|].
  exact (proj1
    (validate_prints_prediction Demo.float_of_str
       (Demo.constant "Neutral" Demo.f0_9) "I'm okay." 1%positive
       (Demo.world Demo.empty_md))
    (PassResult None) eq_refl).
Defined.

Lemma validate_first_prediction_only_witness :
  _pipe (Demo.two (mkPrediction "Positive" Demo.f0_95)
                  (mkPrediction "Negative" Demo.f0_99))
    "This is an exciting opportunity."
  = Ok [mkPrediction "Positive" Demo.f0_95; mkPrediction "Negative" Demo.f0_99]
  /\ _pipe (Demo.constant "Positive" Demo.f0_95)
       "This is an exciting opportunity."
     = Ok [mkPrediction "Positive" Demo.f0_95]
  /\ run (Demo.two (mkPrediction "Positive" Demo.f0_95)
                   (mkPrediction "Negative" Demo.f0_99))
       "This is an exciting opportunity." Demo.positive_md
     = run (Demo.constant "Positive" Demo.f0_95)
         "This is an exciting opportunity." Demo.positive_md.
Proof.
  do 2 (split; [reflexivity|]).
  exact (validate_first_prediction_only Demo.float_of_str
           (Demo.two (mkPrediction "Positive" Demo.f0_95)
                     (mkPrediction "Negative" Demo.f0_99))
           (Demo.constant "Positive" Demo.f0_95)
           "This is an exciting opportunity." 1%positive
           (Demo.world Demo.positive_md) (mkPrediction "Positive" Demo.f0_95)
           [mkPrediction "Negative" Demo.f0_99] [] eq_refl eq_refl).
Defined.

Lemma classifier_error_propagates_witness :
  fst (_unpack_metadata Demo.float_of_str 1%positive
         (Demo.world Demo.empty_md))
  = Ok ("neutral", DEFAULT_THRESHOLD)
  /\ _pipe Demo.broken "I'm okay." = Raise (ExternalError "inference failed")
  /\ run Demo.broken "I'm okay." Demo.empty_md
     = (Raise (ExternalError "inference failed"),
        mkWorld (heap (Demo.world Demo.empty_md)) [] ["I'm okay."]).
Proof.
  do 2 (split; [reflexivity|]).
  exact (classifier_error_propagates Demo.float_of_str Demo.broken "I'm okay."
           1%positive (Demo.world Demo.empty_md) "neutral" DEFAULT_THRESHOLD
           (ExternalError "inference failed") eq_refl eq_refl).
Defined.

Lemma validate_pass_sound_witness :
  fst (run (Demo.constant "Positive" Demo.f0_95)
         "This is an exciting opportunity." Demo.positive_md)
  = Ok (PassResult None)
  /\ exists e t r0 rest,
       fst (_unpack_metadata Demo.float_of_str 1%positive
              (Demo.world Demo.positive_md)) = Ok (e, t)
       /\ e ∈ TONES
       /\ _pipe (Demo.constant "Positive" Demo.f0_95)
            "This is an exciting opportunity." = Ok (r0 :: rest)
       /\ label r0 ∈ LABELS
       /\ lower (label r0) = e
       /\ float_gt (score r0) t = true.
Proof.
  split; [reflexivity|].
  exact (validate_pass_sound Demo.float_of_str
           (Demo.constant "Positive" Demo.f0_95)
           "This is an exciting opportunity." 1%positive
           (Demo.world Demo.positive_md) None eq_refl).
Defined.

Lemma fail_messages_three_witness :
  fst (run (Demo.constant "Negative" Demo.f0_99)
         "This is an interesting increase." Demo.positive_md)
  = Ok (FailResult (Some 1%positive)
          "The generated text didn't have tone positive.")
  /\ "The generated text didn't have tone positive."
     ∈ ["The generated text didn't have tone positive.";
        "The generated text didn't have tone negative.";
        "The generated text didn't have tone neutral."].
Proof.
  split; [reflexivity|].
  exact (fail_messages_three Demo.float_of_str
           (Demo.constant "Negative" Demo.f0_99)
           "This is an interesting increase." 1%positive
           (Demo.world Demo.positive_md) (Some 1%positive)
           "The generated text didn't have tone positive." eq_refl).
Defined.

Lemma validate_ignores_other_keys_witness :
  heap (Demo.world Demo.positive_md) !! 1%positive = Some Demo.positive_md
  /\ Demo.tagged_md !! "financial_tone" = Demo.positive_md !! "financial_tone"
  /\ Demo.tagged_md !! "financial_tone_threshold"
     = Demo.positive_md !! "financial_tone_threshold"
  /\ fst (validate Demo.float_of_str (Demo.constant "Positive" Demo.f0_95)
            "This is an exciting opportunity." 1%positive
            (store_dict (Demo.world Demo.positive_md) 1%positive Demo.tagged_md))
     = fst (run (Demo.constant "Positive" Demo.f0_95)
              "This is an exciting opportunity." Demo.positive_md).
Proof.
  do 3 (split; [reflexivity|]).
  exact (proj1
    (validate_ignores_other_keys Demo.float_of_str
       (Demo.constant "Positive" Demo.f0_95)
       "This is an exciting opportunity." 1%positive
       (Demo.world Demo.positive_md) Demo.positive_md Demo.tagged_md
       eq_refl eq_refl eq_refl)).
Defined.

Lemma threshold_coercion_error_witness :
  heap (Demo.world Demo.none_threshold_md) !! 1%positive
  = Some Demo.none_threshold_md
  /\ py_in (default (PyStr DEFAULT_TONE)
              (Demo.none_threshold_md !! "financial_tone")) TONES
     = Some "neutral"
  /\ Demo.none_threshold_md !! "financial_tone_threshold" = Some PyNone
  /\ py_float Demo.float_of_str PyNone
     = Raise (TypeError
         "float() argument must be a string or a real number, not 'NoneType'")
  /\ run (Demo.constant "Neutral" Demo.f0_9) "I'm okay." Demo.none_threshold_md
     = (Raise (TypeError
          "float() argument must be a string or a real number, not 'NoneType'"),
        Demo.world Demo.none_threshold_md).
Proof.
  do 4 (split; [reflexivity|]).
  exact (threshold_coercion_error Demo.float_of_str
           (Demo.constant "Neutral" Demo.f0_9) "I'm okay." 1%positive
           (Demo.world Demo.none_threshold_md) Demo.none_threshold_md
           "neutral" PyNone _ eq_refl eq_refl eq_refl eq_refl).
Defined.

Lemma threshold_coercion_transparent_witness :
  heap (Demo.world Demo.int_threshold_md) !! 1%positive
  = Some Demo.int_threshold_md
  /\ Demo.int_threshold_md !! "financial_tone_threshold" = Some (PyInt 1)
  /\ py_float Demo.float_of_str (PyInt 1) = Ok float_one
  /\ fst (validate Demo.float_of_str (Demo.constant "Positive" Demo.f0_99)
            "This is an exciting opportunity." 1%positive
            (store_dict (Demo.world Demo.int_threshold_md) 1%positive
               (<["financial_tone_threshold" := PyFloat float_one]>
                  Demo.int_threshold_md)))
     = fst (run (Demo.constant "Positive" Demo.f0_99)
              "This is an exciting opportunity." Demo.int_threshold_md).
Proof.
  do 3 (split; [reflexivity|]).
  exact (proj1
    (threshold_coercion_transparent Demo.float_of_str
       (Demo.constant "Positive" Demo.f0_99)
       "This is an exciting opportunity." 1%positive
       (Demo.world Demo.int_threshold_md) Demo.int_threshold_md
       (PyInt 1) float_one eq_refl eq_refl eq_refl)).
Defined.

Lemma default_per_key_witness :
  heap (Demo.world Demo.positive_md) !! 1%positive = Some Demo.positive_md
  /\ Demo.positive_md !! "financial_tone_threshold" = None
  /\ fst (validate Demo.float_of_str (Demo.constant "Positive" Demo.f0_95)
            "This is an exciting opportunity." 1%positive
            (store_dict (Demo.world Demo.positive_md) 1%positive
               (<["financial_tone_threshold" := PyFloat DEFAULT_THRESHOLD]>
                  Demo.positive_md)))
     = fst (run (Demo.constant "Positive" Demo.f0_95)
              "This is an exciting opportunity." Demo.positive_md).
Proof.
  do 2 (split; [reflexivity|]).
  exact (proj1 (proj2
    (default_per_key Demo.float_of_str (Demo.constant "Positive" Demo.f0_95)
       "This is an exciting opportunity." 1%positive
       (Demo.world Demo.positive_md) Demo.positive_md eq_refl) eq_refl)).
Defined.

Lemma nan_never_passes_witness :
  fst (_unpack_metadata Demo.float_of_str 1%positive
         (Demo.world Demo.nan_threshold_md))
  = Ok ("positive", S754_nan)
  /\ _pipe (Demo.constant "Positive" Demo.f0_99)
       "This is an exciting opportunity."
     = Ok [mkPrediction "Positive" Demo.f0_99]
  /\ "Positive" ∈ LABELS
  /\ fst (run (Demo.constant "Positive" Demo.f0_99)
            "This is an exciting opportunity." Demo.nan_threshold_md)
     = Ok (FailResult (Some 1%positive) (fail_message "positive")).
Proof.
  assert (Hl : "Positive" ∈ LABELS)
    by exact (proj1 (bool_decide_eq_true ("Positive" ∈ LABELS)) eq_refl).
  do 3 (split; [first [reflexivity | exact Hl]|]).
  exact (nan_never_passes Demo.float_of_str
           (Demo.constant "Positive" Demo.f0_99)
           "This is an exciting opportunity." 1%positive
           (Demo.world Demo.nan_threshold_md) "positive" S754_nan
           (mkPrediction "Positive" Demo.f0_99) [] eq_refl eq_refl Hl
           (or_introl eq_refl)).
Defined.

Lemma negative_threshold_label_only_witness :
  fst (_unpack_metadata Demo.float_of_str 1%positive
         (Demo.world Demo.negative_threshold_md))
  = Ok ("positive", Demo.minus_one)
  /\ _pipe (Demo.constant "Positive" float_zero)
       "This is an exciting opportunity."
     = Ok [mkPrediction "Positive" float_zero]
  /\ "Positive" ∈ LABELS
  /\ float_gt float_zero Demo.minus_one = true
  /\ float_le float_zero float_zero = true
  /\ fst (run (Demo.constant "Positive" float_zero)
            "This is an exciting opportunity." Demo.negative_threshold_md)
     = Ok (PassResult None).
Proof.
  assert (Hl : "Positive" ∈ LABELS)
    by exact (proj1 (bool_decide_eq_true ("Positive" ∈ LABELS)) eq_refl).
  do 5 (split; [first [reflexivity | exact Hl]|]).
  exact (negative_threshold_label_only Demo.float_of_str
           (Demo.constant "Positive" float_zero)
           "This is an exciting opportunity." 1%positive
           (Demo.world Demo.negative_threshold_md) "positive" Demo.minus_one
           (mkPrediction "Positive" float_zero) [] eq_refl eq_refl Hl
           eq_refl eq_refl).
Defined.

Lemma init_success_iff_witness :
  Demo.Validator__init__ None ∅ = Ok tt
  /\ Demo.factory "text-classification" "yiyanghkust/finbert-tone"
     = Ok (_pipe (Demo.constant "Neutral" Demo.f0_9))
  /\ fst (__init__ unit Demo.Validator__init__ (Some Demo.factory) None ∅
            (Demo.world Demo.empty_md))
     = Ok (Demo.constant "Neutral" Demo.f0_9).
Proof.
  do 2 (split; [reflexivity|]).
  exact (proj2
    (init_success_iff unit Demo.Validator__init__ (Some Demo.factory) None ∅
       (Demo.world Demo.empty_md) (Demo.constant "Neutral" Demo.f0_9))
    (conj eq_refl (ex_intro _ Demo.factory (conj eq_refl eq_refl)))).
Defined.

Lemma init_frame_witness :
  fst (__init__ unit Demo.Validator__init__ (Some Demo.factory) None ∅
         (Demo.world Demo.empty_md))
  = Ok (Demo.constant "Neutral" Demo.f0_9)
  /\ stdout (snd (__init__ unit Demo.Validator__init__ (Some Demo.factory)
                    None ∅ (Demo.world Demo.empty_md)))
     = [LineText "Pipeline setup successfully."].
Proof.
  split; [reflexivity|].
  exact (proj1 (proj2 (proj2
    (init_frame unit Demo.Validator__init__ (Some Demo.factory) None ∅
       (Demo.world Demo.empty_md))))
    (Demo.constant "Neutral" Demo.f0_9) eq_refl).
Defined.

Lemma missing_transformers_deferred_witness :
  fst (load_module bool ImportError (ImportOk Demo.nltk) false)
  = Ok (mkGlobals bool None (Some Demo.nltk))
  /\ exists msg,
       __init__ unit Demo.Validator__init__
         (pipeline bool (mkGlobals bool None (Some Demo.nltk))) None ∅
         (Demo.world Demo.empty_md)
       = (Raise (ValueError msg), Demo.world Demo.empty_md).
Proof.
  split; [reflexivity|].
  exact (proj2 (proj2 (proj2
    (missing_transformers_deferred unit Demo.Validator__init__ bool
       (ImportOk Demo.nltk) false)
    (mkGlobals bool None (Some Demo.nltk)) eq_refl) None ∅
    (Demo.world Demo.empty_md)) eq_refl).
Defined.

Lemma punkt_fetched_only_when_missing_witness :
  nltk_data_find Demo.nltk "tokenizers/punkt" true = Found
  /\ snd (load_module bool (ImportOk Demo.factory) (ImportOk Demo.nltk) true)
     = true.
Proof.
  split; [reflexivity|].
  exact (proj1 (proj2
    (punkt_fetched_only_when_missing bool (ImportOk Demo.factory)
       (ImportOk Demo.nltk) true)) Demo.nltk eq_refl eq_refl).
Defined.

Lemma punkt_fetch_idempotent_witness :
  load_module bool (ImportOk Demo.factory) (ImportOk Demo.nltk) false
  = (Ok (mkGlobals bool (Some Demo.factory) (Some Demo.nltk)), true)
  /\ nltk_data_find Demo.nltk "tokenizers/punkt" true = Found
  /\ load_module bool (ImportOk Demo.factory) (ImportOk Demo.nltk) true
     = (Ok (mkGlobals bool (Some Demo.factory) (Some Demo.nltk)), true).
Proof.
  do 2 (split; [reflexivity|]).
  exact (punkt_fetch_idempotent bool (ImportOk Demo.factory) Demo.nltk
           false true (mkGlobals bool (Some Demo.factory) (Some Demo.nltk))
           eq_refl eq_refl).
Defined.
